(** * create_favicon.py: the favicon generator of radio-player-app

    A shallow embedding of [bck/create_favicon.py].  The script draws a
    16x16 RGBA icon with Pillow's [ImageDraw], resizes it, packs an ICO
    container and writes three files.  Pillow itself is not part of the
    repository: what its rasteriser, resampler and PNG encoder compute is
    taken as the interface [Imaging]; what the script does with them is
    defined here, statement by statement. *)

From Stdlib Require Import ZArith Strings.Byte.
From stdpp Require Import base list strings gmap.

Open Scope Z_scope.

(** ** Colours, images *)

(** A colour is the 4-tuple of Python ints passed as [fill=] or to
    [Image.new]: (red, green, blue, alpha). *)
Definition Color : Type := Z * Z * Z * Z.

Definition alpha (c : Color) : Z := c.2.

(** An in-memory raster: Pillow's mode string, its [size] (width, height)
    and the pixels in row-major order. *)
Record Image := mkImage {
  mode : string;
  size : nat * nat;
  pixels : list Color
}.

(** [Image.new(mode, size, color)]: every pixel holds [color]. *)
Definition Image_new (m : string) (sz : nat * nat) (color : Color) : Image :=
  {| mode := m; size := sz; pixels := replicate (sz.1 * sz.2)%nat color |}.

(** [img.getpixel((x, y))]; Pillow raises [IndexError] outside the image,
    here [None]. *)
Definition getpixel (img : Image) (xy : nat * nat) : option Color :=
  if ((xy.1 <? (size img).1) && (xy.2 <? (size img).2))%nat
  then pixels img !! (xy.2 * (size img).1 + xy.1)%nat
  else None.

(** Drawing on an image whose mode is that of the drawing context stores
    the ink in every pixel the shape touches, with no blending; [cover]
    says which pixels those are. *)
Definition paint (img : Image) (cover : nat -> nat -> bool) (fill : Color) : Image :=
  let w := (size img).1 in
  {| mode := mode img;
     size := size img;
     pixels := imap (fun i old => if cover (i mod w)%nat (i / w)%nat then fill else old)
                    (pixels img) |}.

Inductive Resampling := NEAREST | BILINEAR | BICUBIC | LANCZOS.

(** ** The imaging library *)

(** What the script asks of Pillow and does not define itself. *)
Class Imaging := {
  (** pixels touched by [draw.rectangle(xy, fill=...)] *)
  rectangle_cover : list Z -> nat -> nat -> bool;
  (** pixels touched by [draw.ellipse(xy, fill=...)] *)
  ellipse_cover : list Z -> nat -> nat -> bool;
  (** pixels touched by [draw.line(xy, fill=...)] *)
  line_cover : list (Z * Z) -> nat -> nat -> bool;
  (** pixels touched by [draw.arc(xy, start, end, fill=...)] *)
  arc_cover : list Z -> Z -> Z -> nat -> nat -> bool;
  (** the value a resampling filter gives the pixel (x, y) of the target *)
  resample : Resampling -> Image -> nat * nat -> nat -> nat -> Color;
  (** [im.copy()] followed by [thumbnail(size, LANCZOS, reducing_gap=None)] *)
  thumbnail : Image -> nat * nat -> Image;
  (** the bytes of [img.save(fp, format='PNG')] *)
  png_encode : Image -> list byte
}.

(** The pixel coordinates of a [w] x [h] raster, row by row. *)
Definition raster (sz : nat * nat) {A} (f : nat -> nat -> A) : list A :=
  (fun i => f (i mod sz.1)%nat (i / sz.1)%nat) <$> seq 0 (sz.1 * sz.2).

(** [img.resize(size, resample)]: a new image of the requested size; the
    receiver is left as it was. *)
Definition Image_resize `{Imaging} (img : Image) (sz : nat * nat) (filter : Resampling) : Image :=
  {| mode := mode img; size := sz; pixels := raster sz (resample filter img sz) |}.

(** ** ImageDraw calls *)

Inductive DrawCall :=
| rectangle (xy : list Z) (fill : Color)
| ellipse (xy : list Z) (fill : Color)
| line (xy : list (Z * Z)) (fill : Color)
| arc (xy : list Z) (start end_ : Z) (fill : Color).

Inductive Primitive := Rectangle | Ellipse | Line | Arc.

Definition primitive (c : DrawCall) : Primitive :=
  match c with
  | rectangle _ _ => Rectangle
  | ellipse _ _ => Ellipse
  | line _ _ => Line
  | arc _ _ _ _ => Arc
  end.

Definition fill_of (c : DrawCall) : Color :=
  match c with
  | rectangle _ f | ellipse _ f | line _ f | arc _ _ _ f => f
  end.

(** One call on the drawing context of [img].  [ImageDraw.Draw(img)]
    aliases the image, so each call updates [img] itself; the model
    passes the image along. *)
Definition draw `{Imaging} (img : Image) (c : DrawCall) : Image :=
  match c with
  | rectangle xy f => paint img (rectangle_cover xy) f
  | ellipse xy f => paint img (ellipse_cover xy) f
  | line xy f => paint img (line_cover xy) f
  | arc xy s e f => paint img (arc_cover xy s e) f
  end.

(** ** create_favicon *)

Definition create_favicon `{Imaging} : Image :=
  (* Create image *)
  let img := Image_new "RGBA" (16, 16)%nat (45, 55, 72, 255) in
  (* Draw radio body *)
  let img := draw img (rectangle [2; 6; 14; 14] (74, 85, 104, 255)) in
  (* Draw speaker *)
  let img := draw img (ellipse [4; 8; 8; 12] (26, 32, 44, 255)) in
  (* Draw knobs *)
  let img := draw img (ellipse [10; 7; 12; 9] (113, 128, 150, 255)) in
  let img := draw img (ellipse [12; 7; 14; 9] (113, 128, 150, 255)) in
  let img := draw img (ellipse [10; 11; 12; 13] (113, 128, 150, 255)) in
  let img := draw img (ellipse [12; 11; 14; 13] (113, 128, 150, 255)) in
  (* Draw antennas *)
  let img := draw img (line [(3, 6); (2, 2)] (113, 128, 150, 255)) in
  let img := draw img (line [(13, 6); (14, 2)] (113, 128, 150, 255)) in
  (* Draw signal waves *)
  let img := draw img (arc [1; 3; 5; 7] 0 90 (72, 187, 120, 255)) in
  let img := draw img (arc [11; 3; 15; 7] 90 180 (72, 187, 120, 255)) in
  img.

(** The colour [Image.new] is given, and the calls of [create_favicon] in
    the order the function makes them. *)
Definition canvas_color : Color := (45, 55, 72, 255).

Definition create_favicon_calls : list DrawCall :=
  [ rectangle [2; 6; 14; 14] (74, 85, 104, 255);
    ellipse [4; 8; 8; 12] (26, 32, 44, 255);
    ellipse [10; 7; 12; 9] (113, 128, 150, 255);
    ellipse [12; 7; 14; 9] (113, 128, 150, 255);
    ellipse [10; 11; 12; 13] (113, 128, 150, 255);
    ellipse [12; 11; 14; 13] (113, 128, 150, 255);
    line [(3, 6); (2, 2)] (113, 128, 150, 255);
    line [(13, 6); (14, 2)] (113, 128, 150, 255);
    arc [1; 3; 5; 7] 0 90 (72, 187, 120, 255);
    arc [11; 3; 15; 7] 90 180 (72, 187, 120, 255) ].

(** Every colour the function mentions: the canvas fill, then the ink of
    each call. *)
Definition colors_used : list Color :=
  canvas_color :: (fill_of <$> create_favicon_calls).

(** ** Bytes *)

(** Pillow's [o8], [o16le] and [o32le]: little-endian fields. *)
Definition o8 (i : Z) : byte :=
  match Byte.of_N (Z.to_N (Z.land i 255)) with
  | Some b => b
  | None => x00
  end.

Definition o16 (i : Z) : list byte := [o8 i; o8 (Z.shiftr i 8)].

Definition o32 (i : Z) : list byte :=
  [o8 i; o8 (Z.shiftr i 8); o8 (Z.shiftr i 16); o8 (Z.shiftr i 24)].

(** ** Saving as ICO *)

(** [img.save(fp, format='ICO', sizes=...)] is Pillow's ICO writer.  The
    script passes no [append_images] and no [bitmap_format], so the writer
    works from the one image it is called on.  Its documented rule for
    [sizes]: "any sizes bigger than the original size or 256 will be
    ignored". *)
Module ICO.

(** [sorted(set(sizes))] on (width, height) tuples. *)
Definition size_ltb (a b : nat * nat) : bool :=
  ((a.1 <? b.1) || ((a.1 =? b.1) && (a.2 <? b.2)))%nat.

Fixpoint insert_size (s : nat * nat) (l : list (nat * nat)) : list (nat * nat) :=
  match l with
  | [] => [s]
  | t :: r =>
      if size_ltb s t then s :: l
      else if size_ltb t s then t :: insert_size s r
      else l
  end.

Definition sorted_set (sizes : list (nat * nat)) : list (nat * nat) :=
  foldr insert_size [] sizes.

(** The frames that go into the container: one per requested size that
    is not skipped; the image itself where its size is the requested
    one, a thumbnail of it otherwise. *)
Definition frames `{Imaging} (im : Image) (sizes : list (nat * nat)) : list Image :=
  let '(width, height) := size im in
  flat_map
    (fun sz : nat * nat =>
       if ((width <? sz.1) || (height <? sz.2) || (256 <? sz.1) || (256 <? sz.2))%nat
       then []
       else if decide (size im = sz) then [im] else [thumbnail im sz])
    (sorted_set sizes).

Definition MAGIC : list byte := [x00; x00; x01; x00].

(** The directory entry and the payload of each frame; [offset] is
    where the payload of the next frame starts. *)
Fixpoint entries `{Imaging} (fs : list Image) (offset : Z) : list byte * list byte :=
  match fs with
  | [] => ([], [])
  | frame :: rest =>
      let '(width, height) := size frame in
      let image_bytes := png_encode frame in
      let bytes_len := Z.of_nat (length image_bytes) in
      let entry :=
        [ o8 (if (width <? 256)%nat then Z.of_nat width else 0);   (* bWidth *)
          o8 (if (height <? 256)%nat then Z.of_nat height else 0); (* bHeight *)
          o8 0;                                                    (* bColorCount *)
          x00;                                                     (* bReserved *)
          x00; x00 ]                                               (* wPlanes *)
        ++ o16 32                                                  (* wBitCount *)
        ++ o32 bytes_len                                           (* dwBytesInRes *)
        ++ o32 offset in                                           (* dwImageOffset *)
      let '(dir, data) := entries rest (offset + bytes_len) in
      (entry ++ dir, image_bytes ++ data)
  end.

Definition save `{Imaging} (im : Image) (sizes : list (nat * nat)) : list byte :=
  let fs := frames im sizes in
  let '(dir, data) := entries fs (6 + Z.of_nat (length fs) * 16) in
  MAGIC ++ o16 (Z.of_nat (length fs)) ++ dir ++ data.

(** Reading the directory back, as an ICO decoder does: the frame count
    of the header, then width and height of each 16-byte entry, where a
    zero byte stands for 256. *)
Definition dim (b : byte) : nat :=
  if (Byte.to_nat b =? 0)%nat then 256%nat else Byte.to_nat b.

Fixpoint read_entries (n : nat) (s : list byte) : option (list (nat * nat)) :=
  match n with
  | O => Some []
  | S n' =>
      match s with
      | w :: h :: _ :: _ :: _ :: _ :: _ :: _ :: _ :: _ :: _ :: _ :: _ :: _ :: _ :: _ :: rest =>
          match read_entries n' rest with
          | Some dims => Some ((dim w, dim h) :: dims)
          | None => None
          end
      | _ => None
      end
  end.

Definition read_sizes (s : list byte) : option (list (nat * nat)) :=
  match s with
  | x00 :: x00 :: x01 :: x00 :: lo :: hi :: rest =>
      read_entries (Byte.to_nat lo + 256 * Byte.to_nat hi)%nat rest
  | _ => None
  end.

End ICO.

(** ** create_ico_data *)

(** Create ICO file data with multiple sizes.  [ico_data] is the
    [io.BytesIO] buffer; what is returned is its [getvalue()]. *)
Definition create_ico_data `{Imaging} : list byte :=
  let img16 := create_favicon in
  let img32 := Image_resize img16 (32, 32)%nat LANCZOS in
  (* Save to bytes *)
  let ico_data := ICO.save img16 [(16, 16); (32, 32)]%nat in
  ico_data.

(** The variant the refinement claim speaks of: [create_ico_data] with
    the resize statement deleted. *)
Definition create_ico_data_without_resize `{Imaging} : list byte :=
  let img16 := create_favicon in
  let ico_data := ICO.save img16 [(16, 16); (32, 32)]%nat in
  ico_data.

(** ** The process: files, console, exceptions *)

Inductive Exception := ImportError | OSError.

(** What a run does that can be observed from outside, in order. *)
Inductive Event :=
| Printed (text : string)
| Wrote (path : string)
| WriteFailed (path : string).

Record World := mkWorld {
  files : gmap string (list byte);
  trace : list Event
}.

(** What the run does not control: whether [from PIL import ...] finds the
    package, whether the file system accepts a write to [path], what a
    refused or interrupted write leaves at [path] (given what was there and
    what was being written), and which other names of the directory denote
    the same file as [path] (hard links, symbolic links): [open(path, 'wb')]
    follows them, so what is written through one name is read under all of
    them. *)
Record Env := mkEnv {
  pil_available : bool;
  write_ok : string -> bool;
  leftover : string -> option (list byte) -> list byte -> option (list byte);
  aliases : string -> list string
}.

Inductive Result (A : Type) :=
| Returned (a : A)
| Raised (e : Exception).
Arguments Returned {A} a.
Arguments Raised {A} e.

Definition Run (A : Type) : Type := World -> Result A * World.

Definition ret {A} (a : A) : Run A := fun w => (Returned a, w).

Definition raise {A} (e : Exception) : Run A := fun w => (Raised e, w).

Definition bind {A B} (m : Run A) (k : A -> Run B) : Run B := fun w =>
  match m w with
  | (Returned a, w') => k a w'
  | (Raised e, w') => (Raised e, w')
  end.

Declare Scope run_scope.
Delimit Scope run_scope with run.
Notation "m ;; k" := (bind m (fun _ => k))
  (at level 100, k at level 200, right associativity) : run_scope.

(** [try: body / except ...: handler]: [handler e] is [None] for an
    exception no [except] clause names, which then keeps propagating. *)
Definition try_except {A} (body : Run A) (handler : Exception -> option (Run A)) : Run A :=
  fun w =>
    match body w with
    | (Returned a, w') => (Returned a, w')
    | (Raised e, w') =>
        match handler e with
        | Some h => h w'
        | None => (Raised e, w')
        end
    end.

Definition print (text : string) : Run unit := fun w =>
  (Returned tt, {| files := files w; trace := trace w ++ [Printed text] |}).

(** The directory after [data] went through to the file [path] names:
    [path] holds it, and so does every other name of that file. *)
Definition stored (env : Env) (path : string) (data : list byte)
    (fs : gmap string (list byte)) : gmap string (list byte) :=
  <[path := data]> (foldr (fun name m => <[name := data]> m) fs (aliases env path)).

(** The directory after a write of [data] to [path] failed: under [path]
    and under every other name of that file is what the environment left
    there. *)
Definition spoiled (env : Env) (path : string) (data : list byte)
    (fs : gmap string (list byte)) : gmap string (list byte) :=
  foldr (fun name m => partial_alter (fun old => leftover env name old data) name m)
        fs (path :: aliases env path).

(** Creating [path] and writing [data] to it: both
    [with open(path, 'wb') as f: f.write(data)] and Pillow's
    [img.save(path, ...)] close the file and let the [OSError] of a failed
    write through. *)
Definition write_file (env : Env) (path : string) (data : list byte) : Run unit := fun w =>
  if write_ok env path
  then (Returned tt,
        {| files := stored env path data (files w); trace := trace w ++ [Wrote path] |})
  else (Raised OSError,
        {| files := spoiled env path data (files w);
           trace := trace w ++ [WriteFailed path] |}).

(** [img.save(path, format='PNG')] *)
Definition Image_save_png `{Imaging} (env : Env) (img : Image) (path : string) : Run unit :=
  write_file env path (png_encode img).

(** [from PIL import Image, ImageDraw] *)
Definition import_PIL (env : Env) : Run unit :=
  if pil_available env then ret tt else raise ImportError.

(** ** The script *)

Open Scope run_scope.

(** The body of [if __name__ == "__main__":]. *)
Definition main `{Imaging} (env : Env) : Run unit :=
  try_except
    (let ico_data := create_ico_data in
     write_file env "favicon.ico" ico_data ;;
     print "favicon.ico created successfully!" ;;
     (* Also create PNG versions *)
     let img := create_favicon in
     Image_save_png env img "favicon-16x16.png" ;;
     Image_save_png env (Image_resize img (32, 32)%nat LANCZOS) "favicon-32x32.png" ;;
     print "PNG versions created successfully!")
    (fun e =>
       match e with
       | ImportError =>
           Some (print "PIL/Pillow not available. Creating a simple HTML-based solution..." ;;
                 (* Fallback: create a data URL favicon *)
                 print "Use the favicon-generator.html file to create favicon manually.")
       | OSError => None
       end).

(** The module from its first line: the Pillow import, the two standard
    library imports (which always succeed), the two [def]s (which only
    bind names), then the main block. *)
Definition script `{Imaging} (env : Env) : Run unit :=
  import_PIL env ;;
  main env.

Close Scope run_scope.

(** A process starts with the files that are there and has printed
    nothing. *)
Definition start (fs : gmap string (list byte)) : World :=
  {| files := fs; trace := [] |}.

(** The lines on standard output, in order. *)
Definition stdout (w : World) : list string :=
  flat_map (fun ev => match ev with Printed s => [s] | _ => [] end) (trace w).

(** The paths of the writes that went through, in order. *)
Definition written (w : World) : list string :=
  flat_map (fun ev => match ev with Wrote p => [p] | _ => [] end) (trace w).

Definition output_files : list string :=
  ["favicon.ico"; "favicon-16x16.png"; "favicon-32x32.png"].

Definition success_lines : list string :=
  ["favicon.ico created successfully!"; "PNG versions created successfully!"].

Definition fallback_lines : list string :=
  ["PIL/Pillow not available. Creating a simple HTML-based solution...";
   "Use the favicon-generator.html file to create favicon manually."].

(** ** A small imaging library to run the definitions on *)

(** Boxes for every shape, nearest-neighbour sampling, raw pixel bytes in
    place of PNG.  It is not Pillow; it shows the interface is inhabited
    and lets the examples compute. *)
Definition in_box (xy : list Z) (x y : nat) : bool :=
  match xy with
  | [x0; y0; x1; y1] =>
      (x0 <=? Z.of_nat x) && (Z.of_nat x <=? x1) && (y0 <=? Z.of_nat y) && (Z.of_nat y <=? y1)
  | _ => false
  end.

Definition at_point (pts : list (Z * Z)) (x y : nat) : bool :=
  existsb (fun p : Z * Z => (p.1 =? Z.of_nat x) && (p.2 =? Z.of_nat y)) pts.

Definition nearest (img : Image) (sz : nat * nat) (x y : nat) : Color :=
  default (0, 0, 0, 0)
    (getpixel img ((x * (size img).1 / sz.1)%nat, (y * (size img).2 / sz.2)%nat)).

Definition raw_bytes (img : Image) : list byte :=
  flat_map (fun c : Color => [o8 c.1.1.1; o8 c.1.1.2; o8 c.1.2; o8 c.2]) (pixels img).

Definition box_imaging : Imaging := {|
  rectangle_cover := in_box;
  ellipse_cover := in_box;
  line_cover := at_point;
  arc_cover := fun xy _ _ => in_box xy;
  resample := fun _ => nearest;
  thumbnail := fun img sz => {| mode := mode img; size := sz; pixels := raster sz (nearest img sz) |};
  png_encode := raw_bytes
|}.

Definition all_writes_ok : Env :=
  {| pil_available := true; write_ok := fun _ => true; leftover := fun _ old _ => old;
     aliases := fun _ => [] |}.

Definition no_pil : Env :=
  {| pil_available := false; write_ok := fun _ => true; leftover := fun _ old _ => old;
     aliases := fun _ => [] |}.

Definition read_only_directory : Env :=
  {| pil_available := true; write_ok := fun _ => false; leftover := fun _ old _ => old;
     aliases := fun _ => [] |}.

Definition disk_full_after_ico : Env :=
  {| pil_available := true;
     write_ok := fun p => bool_decide (p = "favicon.ico");
     leftover := fun _ _ _ => Some [];
     aliases := fun _ => [] |}.

(** A directory in which [favicon-16x16.png] is a link to [favicon.ico],
    and one in which [favicon.ico] is a link to [index.html]. *)
Definition png16_linked_to_ico : Env :=
  {| pil_available := true; write_ok := fun _ => true; leftover := fun _ old _ => old;
     aliases := fun p =>
       if bool_decide (p = "favicon-16x16.png") then ["favicon.ico"]
       else if bool_decide (p = "favicon.ico") then ["favicon-16x16.png"]
       else [] |}.

Definition ico_linked_to_index : Env :=
  {| pil_available := true; write_ok := fun _ => true; leftover := fun _ old _ => old;
     aliases := fun p =>
       if bool_decide (p = "favicon.ico") then ["index.html"]
       else if bool_decide (p = "index.html") then ["favicon.ico"]
       else [] |}.

(** ** Vocabulary of the properties *)

(** One run of the script as a process: from the files that are there,
    to how it ended and the world it left. *)
Definition run `{Imaging} (env : Env) (fs : gmap string (list byte)) : Result unit * World :=
  script env (start fs).

(** The three console outcomes the specification lists.  (a): the run
    ends normally, the first success line follows the ICO write and the
    second follows the two PNG writes. *)
Definition two_success_lines (r : Result unit * World) : Prop :=
  r.1 = Returned tt
  /\ trace r.2 = [ Wrote "favicon.ico";
                   Printed "favicon.ico created successfully!";
                   Wrote "favicon-16x16.png";
                   Wrote "favicon-32x32.png";
                   Printed "PNG versions created successfully!" ].

(** (b): the run ends normally and has printed the two fallback lines. *)
Definition two_fallback_lines (r : Result unit * World) : Prop :=
  r.1 = Returned tt /\ stdout r.2 = fallback_lines.

(** (c): the run dies of the error of a failed write. *)
Definition unhandled_write_failure (r : Result unit * World) : Prop :=
  r.1 = Raised OSError /\ exists path, last (trace r.2) = Some (WriteFailed path).

(** No output name is another name of the file a different output name
    denotes. *)
Definition outputs_unlinked (env : Env) : Prop :=
  forall p q, p ∈ output_files -> q ∈ output_files -> q ∉ aliases env p.

(** The same library with another resampler and thumbnailer. *)
Definition with_resampler (I : Imaging)
    (r : Resampling -> Image -> nat * nat -> nat -> nat -> Color)
    (t : Image -> nat * nat -> Image) : Imaging :=
  {| rectangle_cover := @rectangle_cover I;
     ellipse_cover := @ellipse_cover I;
     line_cover := @line_cover I;
     arc_cover := @arc_cover I;
     resample := r;
     thumbnail := t;
     png_encode := @png_encode I |}.

(** A colour with full alpha. *)
Definition opaque (c : Color) : Prop := alpha c = 255.

(** The five colours of the drawing: canvas slate, body gray, dark
    speaker, light knob and antenna, green signal wave. *)
Definition palette : list Color :=
  [ (45, 55, 72, 255); (74, 85, 104, 255); (26, 32, 44, 255);
    (113, 128, 150, 255); (72, 187, 120, 255) ].

(** The canvas after the first [n] calls of [create_favicon]. *)
Definition canvas_after `{Imaging} (n : nat) : Image :=
  foldl draw (Image_new "RGBA" (16, 16)%nat canvas_color) (take n create_favicon_calls).

(** Whether the shape of a call touches the pixel (x, y). *)
Definition covers `{Imaging} (c : DrawCall) (x y : nat) : bool :=
  match c with
  | rectangle xy _ => rectangle_cover xy x y
  | ellipse xy _ => ellipse_cover xy x y
  | line xy _ => line_cover xy x y
  | arc xy s e _ => arc_cover xy s e x y
  end.

(** The colour one pixel ends with when the calls [cs] are made in order
    over a pixel that held [under]. *)
Fixpoint top_fill `{Imaging} (cs : list DrawCall) (x y : nat) (under : Color) : Color :=
  match cs with
  | [] => under
  | c :: rest => top_fill rest x y (if covers c x y then fill_of c else under)
  end.

(** * Properties *)

(** ** The base canvas *)

Section Canvas.
Context `{Imaging}.

Lemma paint_length img cover fill :
  length (pixels (paint img cover fill)) = length (pixels img).
Proof. unfold paint; simpl. apply length_imap. Qed.

Lemma paint_Forall (P : Color -> Prop) img cover fill :
  P fill -> Forall P (pixels img) -> Forall P (pixels (paint img cover fill)).
Proof.
  intros Hfill Himg. unfold paint; simpl.
  apply Forall_lookup. intros i c Hc.
  rewrite list_lookup_imap in Hc.
  destruct (pixels img !! i) as [old|] eqn:Hold; simpl in Hc; [|discriminate].
  injection Hc as <-.
  destruct (cover _ _); [exact Hfill|].
  eapply Forall_lookup_1; eauto.
Qed.

Lemma draw_mode img c : mode (draw img c) = mode img.
Proof. by destruct c. Qed.

Lemma draw_size img c : size (draw img c) = size img.
Proof. by destruct c. Qed.

Lemma draw_length img c : length (pixels (draw img c)) = length (pixels img).
Proof. destruct c; apply paint_length. Qed.

Lemma draw_Forall (P : Color -> Prop) img c :
  P (fill_of c) -> Forall P (pixels img) -> Forall P (pixels (draw img c)).
Proof. destruct c; apply paint_Forall. Qed.

Lemma foldl_draw_shape img cs :
  mode (foldl draw img cs) = mode img
  /\ size (foldl draw img cs) = size img
  /\ length (pixels (foldl draw img cs)) = length (pixels img).
Proof.
  revert img. induction cs as [|c cs IH]; intros img; simpl; [done|].
  destruct (IH (draw img c)) as (Hm & Hs & Hl).
  rewrite Hm, Hs, Hl, draw_mode, draw_size, draw_length. done.
Qed.

Lemma foldl_draw_Forall (P : Color -> Prop) img cs :
  Forall P (fill_of <$> cs) -> Forall P (pixels img) ->
  Forall P (pixels (foldl draw img cs)).
Proof.
  revert img. induction cs as [|c cs IH]; intros img Hcs Himg; simpl; [done|].
  apply Forall_cons in Hcs as [Hc Hcs].
  apply IH; [done|]. by apply draw_Forall.
Qed.

(** The function body is the fold of its call list over the new canvas. *)
Lemma create_favicon_fold :
  create_favicon = foldl draw (Image_new "RGBA" (16, 16)%nat canvas_color) create_favicon_calls.
Proof. reflexivity. Qed.

Lemma create_favicon_size : size create_favicon = (16, 16)%nat.
Proof. reflexivity. Qed.

Lemma create_favicon_length : length (pixels create_favicon) = 256%nat.
Proof.
  rewrite create_favicon_fold.
  destruct (foldl_draw_shape (Image_new "RGBA" (16, 16)%nat canvas_color)
              create_favicon_calls) as (_ & _ & ->).
  reflexivity.
Qed.

(** A pixel inside the image is there to be read. *)
Lemma getpixel_is_Some img x y :
  length (pixels img) = ((size img).1 * (size img).2)%nat ->
  (x < (size img).1)%nat -> (y < (size img).2)%nat ->
  is_Some (getpixel img (x, y)).
Proof.
  intros Hlen Hx Hy. unfold getpixel; simpl.
  destruct (Nat.ltb_spec x (size img).1); [|lia].
  destruct (Nat.ltb_spec y (size img).2); [|lia].
  simpl. apply lookup_lt_is_Some. rewrite Hlen. nia.
Qed.

End Canvas.

(** C9: the canvas fill and the colour of every drawing call have alpha
    255, the canvas is opaque after each step of the construction, and so
    every one of the 256 pixels of the finished base canvas has alpha
    255. *)
Theorem create_favicon_opaque `{Imaging} :
  Forall opaque colors_used
  /\ (forall n, Forall opaque (pixels (canvas_after n)))
  /\ length (pixels create_favicon) = 256%nat
  /\ Forall opaque (pixels create_favicon).
Proof.
  assert (Hcolors : Forall opaque colors_used).
  { unfold colors_used, create_favicon_calls; simpl.
    repeat constructor. }
  assert (Hsteps : forall n, Forall opaque (pixels (canvas_after n))).
  { intros n. unfold canvas_after. apply foldl_draw_Forall.
    - unfold colors_used in Hcolors.
      apply Forall_cons in Hcolors as [_ Hcalls].
      rewrite fmap_take. by apply Forall_take.
    - unfold Image_new, pixels. apply Forall_replicate. reflexivity. }
  split; [done|]. split; [done|]. split; [apply create_favicon_length|].
  rewrite create_favicon_fold.
  specialize (Hsteps (length create_favicon_calls)).
  unfold canvas_after in Hsteps. by rewrite firstn_all in Hsteps.
Qed.

Lemma palette_NoDup : NoDup palette.
Proof.
  unfold palette.
  repeat (apply NoDup_cons; split;
          [rewrite ?not_elem_of_cons; repeat split; (discriminate || apply not_elem_of_nil)|]).
  apply NoDup_nil_2.
Qed.

Lemma colors_used_palette (c : Color) : c ∈ colors_used <-> c ∈ palette.
Proof.
  unfold colors_used, create_favicon_calls, palette, canvas_color; simpl.
  rewrite !elem_of_cons, !elem_of_nil. tauto.
Qed.

(** C3, as the code has it: the colours of the program are exactly five
    fixed RGBA constants, pairwise distinct; the canvas fill and the ink
    of every drawing call is one of them, and each of the five is used. *)
Theorem palette_five :
  length palette = 5%nat
  /\ NoDup palette
  /\ forall c : Color, c ∈ colors_used <-> c ∈ palette.
Proof.
  split; [reflexivity|]. split; [apply palette_NoDup|apply colors_used_palette].
Qed.

(** C3, as the claim has it, fails: no palette of four colours holds
    every colour [create_favicon] uses; the green of the two arcs is a
    fifth. *)
Lemma palette_not_four :
  ~ (exists p : list Color, length p = 4%nat /\ forall c : Color, c ∈ colors_used -> c ∈ p).
Proof.
  intros (p & Hlen & Hin).
  assert (Hsub : palette ⊆+ p).
  { apply NoDup_submseteq; [apply palette_NoDup|].
    intros c Hc. apply Hin, colors_used_palette, Hc. }
  apply submseteq_length in Hsub. simpl in Hsub. lia.
Qed.

(** ** The ICO data *)

Section Ico.
Context `{Imaging}.

(** Asked for 16x16 and 32x32 of a 16x16 image, the writer keeps one
    frame: the image. *)
Lemma frames_of_16 (im : Image) :
  size im = (16, 16)%nat -> ICO.frames im [(16, 16); (32, 32)]%nat = [im].
Proof.
  intros Hs. unfold ICO.frames. rewrite Hs. simpl.
  destruct (decide ((16, 16)%nat = (16, 16)%nat)); [reflexivity | congruence].
Qed.

Lemma save_of_16 (im : Image) :
  size im = (16, 16)%nat ->
  ICO.save im [(16, 16); (32, 32)]%nat
  = ICO.MAGIC ++ [x01; x00]
    ++ ([x10; x10; x00; x00; x00; x00; x20; x00]
        ++ o32 (Z.of_nat (length (png_encode im))) ++ [x16; x00; x00; x00])
    ++ png_encode im.
Proof.
  intros Hs. unfold ICO.save. rewrite (frames_of_16 im Hs).
  unfold ICO.entries. rewrite Hs. simpl. rewrite app_nil_r. reflexivity.
Qed.

Lemma read_sizes_of_16 (im : Image) :
  size im = (16, 16)%nat ->
  ICO.read_sizes (ICO.save im [(16, 16); (32, 32)]%nat) = Some [(16, 16)%nat].
Proof. intros Hs. rewrite (save_of_16 im Hs). reflexivity. Qed.

End Ico.

(** C2, what the code does: although the docstring promises multiple
    sizes and 32x32 is among the sizes asked for, [create_ico_data] hands
    the writer the 16x16 image only; the container holds that single
    frame, and its directory, read back, lists 16x16 and nothing else. *)
Theorem create_ico_data_single_frame `{Imaging} :
  ICO.frames create_favicon [(16, 16); (32, 32)]%nat = [create_favicon]
  /\ ICO.read_sizes create_ico_data = Some [(16, 16)%nat]
  /\ ICO.read_sizes create_ico_data <> Some [(16, 16); (32, 32)]%nat.
Proof.
  assert (Hread : ICO.read_sizes create_ico_data = Some [(16, 16)%nat]).
  { unfold create_ico_data. apply read_sizes_of_16, create_favicon_size. }
  split; [apply frames_of_16, create_favicon_size|].
  split; [exact Hread|]. rewrite Hread. discriminate.
Qed.

(** C10: the bytes [create_ico_data] returns are those of the ICO writer
    applied to the base image; the variant without the resize statement
    returns the same bytes. *)
Theorem create_ico_data_ignores_resize `{Imaging} :
  create_ico_data = create_ico_data_without_resize
  /\ create_ico_data = ICO.save create_favicon [(16, 16); (32, 32)]%nat.
Proof.
  unfold create_ico_data, create_ico_data_without_resize. cbv zeta.
  split; exact eq_refl.
Qed.

(** Nor do the canvas and the bytes depend on what the resampler
    computes. *)
Lemma foldl_draw_any_resampler (I : Imaging) r t cs img :
  foldl (@draw (with_resampler I r t)) img cs = foldl (@draw I) img cs.
Proof.
  revert img. induction cs as [|c cs IH]; intros img; simpl; [reflexivity|].
  rewrite IH. f_equal; destruct c; reflexivity.
Qed.

Lemma create_favicon_any_resampler (I : Imaging) r t :
  @create_favicon (with_resampler I r t) = @create_favicon I.
Proof.
  rewrite (@create_favicon_fold (with_resampler I r t)), (@create_favicon_fold I).
  apply foldl_draw_any_resampler.
Qed.

Lemma create_ico_data_any_resampler (I : Imaging) r t :
  @create_ico_data (with_resampler I r t) = @create_ico_data I.
Proof.
  unfold create_ico_data. cbv zeta.
  rewrite (@save_of_16 (with_resampler I r t) _ (@create_favicon_size _)).
  rewrite (@save_of_16 I _ (@create_favicon_size _)).
  rewrite create_favicon_any_resampler.
  cbn [png_encode with_resampler]. reflexivity.
Qed.

(** ** Writes and the names of a file *)

Lemma lookup_foldr_insert (names : list string) (data : list byte)
    (fs : gmap string (list byte)) (k : string) :
  foldr (fun name m => <[name := data]> m) fs names !! k
  = if decide (k ∈ names) then Some data else fs !! k.
Proof.
  induction names as [|name names IH]; cbn [foldr].
  - rewrite decide_False by apply not_elem_of_nil. reflexivity.
  - rewrite lookup_insert, IH.
    destruct (decide (name = k)) as [->|Hne].
    + rewrite decide_True by (apply elem_of_cons; by left). reflexivity.
    + destruct (decide (k ∈ names)) as [Hin|Hnin].
      * rewrite decide_True by (apply elem_of_cons; by right). reflexivity.
      * rewrite decide_False; [reflexivity|].
        rewrite elem_of_cons. intros [->|?]; done.
Qed.

(** After a write went through, the name written and every other name of
    that file hold the data; all other names hold what they held. *)
Lemma lookup_stored env path data fs k :
  stored env path data fs !! k
  = if decide (k ∈ path :: aliases env path) then Some data else fs !! k.
Proof.
  unfold stored. rewrite lookup_insert, lookup_foldr_insert.
  destruct (decide (path = k)) as [->|Hne].
  - rewrite decide_True by (apply elem_of_cons; by left). reflexivity.
  - destruct (decide (k ∈ aliases env path)) as [Hin|Hnin].
    + rewrite decide_True by (apply elem_of_cons; by right). reflexivity.
    + rewrite decide_False; [reflexivity|].
      rewrite elem_of_cons. intros [->|?]; done.
Qed.

Lemma lookup_stored_eq env path data fs :
  stored env path data fs !! path = Some data.
Proof. unfold stored. apply lookup_insert_eq. Qed.

Lemma lookup_stored_ne env path data fs k :
  k <> path -> k ∉ aliases env path -> stored env path data fs !! k = fs !! k.
Proof.
  intros Hne Hnin. rewrite lookup_stored, decide_False; [reflexivity|].
  rewrite elem_of_cons. intros [->|?]; done.
Qed.

(** A failed write changes nothing under a name that is no name of the
    file. *)
Lemma lookup_spoiled_ne env path data fs k :
  k <> path -> k ∉ aliases env path -> spoiled env path data fs !! k = fs !! k.
Proof.
  intros Hne Hnin. unfold spoiled.
  assert (Hk : k ∉ path :: aliases env path).
  { rewrite elem_of_cons. intros [->|?]; done. }
  induction (path :: aliases env path) as [|name names IH]; simpl; [reflexivity|].
  apply not_elem_of_cons in Hk as [Hk1 Hk2].
  rewrite lookup_partial_alter_ne by done. by apply IH.
Qed.

(** ** The run of the script *)

Section Script.
Context `{Imaging}.

(** How a run ends, case by case: the import fails; or the first, the
    second or the third write fails; or everything goes through. *)
Lemma run_cases env fs :
  (pil_available env = false
   /\ run env fs = (Raised ImportError, start fs))
  \/ (pil_available env = true /\ write_ok env "favicon.ico" = false
      /\ (run env fs).1 = Raised OSError
      /\ trace (run env fs).2 = [WriteFailed "favicon.ico"])
  \/ (pil_available env = true /\ write_ok env "favicon.ico" = true
      /\ write_ok env "favicon-16x16.png" = false
      /\ (run env fs).1 = Raised OSError
      /\ trace (run env fs).2
         = [ Wrote "favicon.ico"; Printed "favicon.ico created successfully!";
             WriteFailed "favicon-16x16.png" ])
  \/ (pil_available env = true /\ write_ok env "favicon.ico" = true
      /\ write_ok env "favicon-16x16.png" = true
      /\ write_ok env "favicon-32x32.png" = false
      /\ (run env fs).1 = Raised OSError
      /\ trace (run env fs).2
         = [ Wrote "favicon.ico"; Printed "favicon.ico created successfully!";
             Wrote "favicon-16x16.png"; WriteFailed "favicon-32x32.png" ])
  \/ (pil_available env = true /\ write_ok env "favicon.ico" = true
      /\ write_ok env "favicon-16x16.png" = true
      /\ write_ok env "favicon-32x32.png" = true
      /\ run env fs
         = (Returned tt,
            {| files :=
                 stored env "favicon-32x32.png"
                   (png_encode (Image_resize create_favicon (32, 32)%nat LANCZOS))
                   (stored env "favicon-16x16.png" (png_encode create_favicon)
                      (stored env "favicon.ico" create_ico_data fs));
               trace :=
                 [ Wrote "favicon.ico"; Printed "favicon.ico created successfully!";
                   Wrote "favicon-16x16.png"; Wrote "favicon-32x32.png";
                   Printed "PNG versions created successfully!" ] |})).
Proof.
  cbv beta iota zeta delta
    [run script main import_PIL try_except bind Image_save_png write_file print
     ret raise start fst snd files trace].
  destruct (pil_available env); [|left; split; reflexivity].
  right.
  destruct (write_ok env "favicon.ico"); cbv beta iota;
    [|left; repeat split; reflexivity].
  right.
  destruct (write_ok env "favicon-16x16.png"); cbv beta iota;
    [|left; repeat split; reflexivity].
  right.
  destruct (write_ok env "favicon-32x32.png"); cbv beta iota;
    [|left; repeat split; reflexivity].
  right. repeat split; reflexivity.
Qed.

End Script.

(** ** Resizing *)

Lemma length_raster {A} (sz : nat * nat) (f : nat -> nat -> A) :
  length (raster sz f) = (sz.1 * sz.2)%nat.
Proof. unfold raster. rewrite length_fmap. apply length_seq. Qed.

Lemma raster_lookup {A} (w h : nat) (f : nat -> nat -> A) x y :
  (x < w)%nat -> (y < h)%nat ->
  raster (w, h) f !! (y * w + x)%nat = Some (f x y).
Proof.
  intros Hx Hy. unfold raster; simpl.
  rewrite list_lookup_fmap, lookup_seq_lt by nia. simpl.
  assert (Hmod : ((y * w + x) mod w = x)%nat).
  { symmetry. apply (Nat.mod_unique _ _ y); lia. }
  assert (Hdiv : ((y * w + x) / w = y)%nat).
  { symmetry. apply (Nat.div_unique _ _ _ x); lia. }
  rewrite Hmod, Hdiv. reflexivity.
Qed.

Lemma getpixel_resize `{Imaging} img w h filter x y :
  (x < w)%nat -> (y < h)%nat ->
  getpixel (Image_resize img (w, h) filter) (x, y) = Some (resample filter img (w, h) x y).
Proof.
  intros Hx Hy. unfold getpixel, Image_resize; simpl.
  destruct (Nat.ltb_spec x w); [|lia].
  destruct (Nat.ltb_spec y h); [|lia].
  simpl. by apply raster_lookup.
Qed.

(** C5: in every run that writes [favicon-32x32.png], the file holds the
    PNG encoding of the image obtained by resizing the 16x16 base canvas
    to (32, 32) with the LANCZOS filter; that image is exactly 32x32, with
    1024 pixels, and each of its pixels is the value the LANCZOS resampler
    computes from the base canvas. *)
Theorem large_icon_resized_from_base `{Imaging} env fs :
  Wrote "favicon-32x32.png" ∈ trace (run env fs).2 ->
  let large := Image_resize create_favicon (32, 32)%nat LANCZOS in
  files (run env fs).2 !! "favicon-32x32.png" = Some (png_encode large)
  /\ size create_favicon = (16, 16)%nat
  /\ size large = (32, 32)%nat
  /\ length (pixels large) = 1024%nat
  /\ forall x y, (x < 32)%nat -> (y < 32)%nat ->
       getpixel large (x, y) = Some (resample LANCZOS create_favicon (32, 32)%nat x y).
Proof.
  intros Hw large.
  split.
  - destruct (run_cases env fs)
      as [[_ Hr]|[(_ & _ & _ & Ht)|[(_ & _ & _ & _ & Ht)|[(_ & _ & _ & _ & _ & Ht)
          |(_ & _ & _ & _ & Hr)]]]].
    + rewrite Hr in Hw. simpl in Hw. by apply elem_of_nil in Hw.
    + rewrite Ht in Hw. rewrite !elem_of_cons, elem_of_nil in Hw.
      destruct Hw as [Hw|Hw]; [discriminate|done].
    + rewrite Ht in Hw. rewrite !elem_of_cons, elem_of_nil in Hw.
      destruct Hw as [Hw|[Hw|[Hw|Hw]]]; try discriminate; done.
    + rewrite Ht in Hw. rewrite !elem_of_cons, elem_of_nil in Hw.
      destruct Hw as [Hw|[Hw|[Hw|[Hw|Hw]]]]; try discriminate; done.
    + rewrite Hr. cbn [snd files]. apply lookup_stored_eq.
  - split; [apply create_favicon_size|].
    split; [reflexivity|].
    split; [unfold large, Image_resize; cbn [pixels]; apply length_raster|].
    intros x y Hx Hy. by apply getpixel_resize.
Qed.

(** ** Outcomes *)

(** C1, what the code does: the Pillow import is the first statement of
    the module, outside the [try]; when it fails the [ImportError] leaves
    the script unhandled.  No file is written, and no line is printed:
    the two fallback lines of the handler are not reached. *)
Theorem import_failure_escapes `{Imaging} ok lo al fs :
  let r := run {| pil_available := false; write_ok := ok; leftover := lo; aliases := al |} fs in
  r.1 = Raised ImportError
  /\ files r.2 = fs
  /\ written r.2 = []
  /\ stdout r.2 = []
  /\ stdout r.2 <> fallback_lines.
Proof.
  cbv beta iota zeta delta [run script import_PIL bind raise pil_available start fst snd].
  repeat split. discriminate.
Qed.

(** With Pillow present the console outcome is (a) or (c) of the
    specification, and never the fallback. *)
Lemma console_outcome_with_pil `{Imaging} env fs :
  pil_available env = true ->
  (two_success_lines (run env fs) \/ unhandled_write_failure (run env fs))
  /\ ~ two_fallback_lines (run env fs).
Proof.
  intros Hpil.
  destruct (run_cases env fs)
    as [[Hno _]|[(_ & _ & Hr & Ht)|[(_ & _ & _ & Hr & Ht)|[(_ & _ & _ & _ & Hr & Ht)
        |(_ & _ & _ & _ & Hr)]]]].
  - congruence.
  - split; [right; split; [done|]; rewrite Ht; by eexists|].
    intros [Hret _]. congruence.
  - split; [right; split; [done|]; rewrite Ht; by eexists|].
    intros [Hret _]. congruence.
  - split; [right; split; [done|]; rewrite Ht; by eexists|].
    intros [Hret _]. congruence.
  - rewrite Hr. split; [left; split; reflexivity|].
    intros [_ Hout]. discriminate Hout.
Qed.

(** C8, what the code does: when Pillow cannot be imported the run ends
    in none of the three listed outcomes; it dies of an [ImportError] with
    nothing printed. *)
Theorem console_outcome_without_pil `{Imaging} ok lo al fs :
  let r := run {| pil_available := false; write_ok := ok; leftover := lo; aliases := al |} fs in
  ~ (two_success_lines r \/ two_fallback_lines r \/ unhandled_write_failure r).
Proof.
  intros r.
  assert (Hr : r = (Raised ImportError, start fs)) by reflexivity.
  rewrite Hr. unfold two_success_lines, two_fallback_lines, unhandled_write_failure.
  cbn [fst snd].
  intros [[Hret _]|[[Hret _]|[Hret _]]]; discriminate.
Qed.

(** C7: in every run in which a write fails, the error is not caught: the
    run ends with the [OSError] raised, the failed write is the last thing
    it did, and no fallback line was printed. *)
Theorem write_failure_propagates `{Imaging} env fs path :
  WriteFailed path ∈ trace (run env fs).2 ->
  (run env fs).1 = Raised OSError
  /\ last (trace (run env fs).2) = Some (WriteFailed path)
  /\ forall text, text ∈ fallback_lines -> text ∉ stdout (run env fs).2.
Proof.
  intros Hf.
  destruct (run_cases env fs)
    as [[_ Hr]|[(_ & _ & Hr & Ht)|[(_ & _ & _ & Hr & Ht)|[(_ & _ & _ & _ & Hr & Ht)
        |(_ & _ & _ & _ & Hr)]]]].
  - rewrite Hr in Hf. simpl in Hf. by apply elem_of_nil in Hf.
  - rewrite Ht in Hf. rewrite !elem_of_cons, elem_of_nil in Hf.
    destruct Hf as [Hf|[]]. injection Hf as ->.
    split; [done|]. unfold stdout. rewrite Ht. split; [reflexivity|].
    intros text _. simpl. apply not_elem_of_nil.
  - rewrite Ht in Hf. rewrite !elem_of_cons, elem_of_nil in Hf.
    destruct Hf as [Hf|[Hf|[Hf|[]]]]; try discriminate. injection Hf as ->.
    split; [done|]. unfold stdout. rewrite Ht. split; [reflexivity|].
    intros text Ht'. simpl. unfold fallback_lines in Ht'.
    rewrite !elem_of_cons, elem_of_nil in Ht'. rewrite !elem_of_cons, elem_of_nil.
    intros [->|[]]. destruct Ht' as [Ht'|[Ht'|[]]]; discriminate.
  - rewrite Ht in Hf. rewrite !elem_of_cons, elem_of_nil in Hf.
    destruct Hf as [Hf|[Hf|[Hf|[Hf|[]]]]]; try discriminate. injection Hf as ->.
    split; [done|]. unfold stdout. rewrite Ht. split; [reflexivity|].
    intros text Ht'. simpl. unfold fallback_lines in Ht'.
    rewrite !elem_of_cons, elem_of_nil in Ht'. rewrite !elem_of_cons, elem_of_nil.
    intros [->|[]]. destruct Ht' as [Ht'|[Ht'|[]]]; discriminate.
  - rewrite Hr in Hf. cbn [snd trace] in Hf.
    rewrite !elem_of_cons, elem_of_nil in Hf.
    destruct Hf as [Hf|[Hf|[Hf|[Hf|[Hf|[]]]]]]; discriminate.
Qed.

(** ** Determinism *)

(** C6: a run that succeeds leaves in each of the three output files
    bytes that do not depend on what the file system held before, and
    prints the same lines; a second run, started on the files the first
    one left, succeeds as well and leaves every file as it found it. *)
Theorem pipeline_deterministic `{Imaging} env fs fs' :
  (run env fs).1 = Returned tt ->
  (run env fs').1 = Returned tt
  /\ trace (run env fs').2 = trace (run env fs).2
  /\ (forall path, path ∈ output_files ->
        is_Some (files (run env fs).2 !! path)
        /\ files (run env fs').2 !! path = files (run env fs).2 !! path)
  /\ files (run env (files (run env fs).2)).2 = files (run env fs).2.
Proof.
  intros Hok.
  destruct (run_cases env fs)
    as [[_ Hr]|[(_ & _ & Hr & _)|[(_ & _ & _ & Hr & _)|[(_ & _ & _ & _ & Hr & _)
        |(Hpil & Hico & H16 & H32 & Hr)]]]];
    try (rewrite Hr in Hok; discriminate).
  assert (Hany : forall fs0, run env fs0
    = (Returned tt,
       {| files :=
            stored env "favicon-32x32.png"
              (png_encode (Image_resize create_favicon (32, 32)%nat LANCZOS))
              (stored env "favicon-16x16.png" (png_encode create_favicon)
                 (stored env "favicon.ico" create_ico_data fs0));
          trace :=
            [ Wrote "favicon.ico"; Printed "favicon.ico created successfully!";
              Wrote "favicon-16x16.png"; Wrote "favicon-32x32.png";
              Printed "PNG versions created successfully!" ] |})).
  { intros fs0.
    destruct (run_cases env fs0)
      as [[Hno _]|[(_ & Hno & _)|[(_ & _ & Hno & _)|[(_ & _ & _ & Hno & _)
          |(_ & _ & _ & _ & Hr0)]]]]; try congruence. }
  rewrite !Hany. cbn [fst snd files trace].
  split; [reflexivity|]. split; [reflexivity|]. split.
  - intros path Hpath. unfold output_files in Hpath.
    rewrite !elem_of_cons, elem_of_nil in Hpath.
    rewrite !lookup_stored.
    destruct Hpath as [->|[->|[->|[]]]];
      repeat case_decide; try (split; [eauto|reflexivity]);
      exfalso; match goal with Hn : _ ∉ _ :: _ |- _ => apply Hn, elem_of_cons; by left end.
  - apply map_eq. intros path. rewrite !lookup_stored.
    repeat case_decide; done.
Qed.

(** ** The definitions at work *)

Example box_run_succeeds :
  (@run box_imaging all_writes_ok ∅).1 = Returned tt
  /\ stdout (@run box_imaging all_writes_ok ∅).2 = success_lines
  /\ written (@run box_imaging all_writes_ok ∅).2 = output_files.
Proof. vm_compute. repeat split. Qed.

Example box_run_read_only :
  (@run box_imaging read_only_directory ∅).1 = Raised OSError
  /\ trace (@run box_imaging read_only_directory ∅).2 = [WriteFailed "favicon.ico"].
Proof. vm_compute. split; reflexivity. Qed.

Example box_run_disk_full :
  (@run box_imaging disk_full_after_ico ∅).1 = Raised OSError
  /\ stdout (@run box_imaging disk_full_after_ico ∅).2 = ["favicon.ico created successfully!"]
  /\ files (@run box_imaging disk_full_after_ico ∅).2 !! "favicon-16x16.png" = Some [].
Proof. vm_compute. repeat split. Qed.

Example box_run_no_pil :
  @run box_imaging no_pil ∅ = (Raised ImportError, start ∅).
Proof. reflexivity. Qed.

Example box_speaker_pixel :
  getpixel (@create_favicon box_imaging) (5, 9)%nat = Some (26, 32, 44, 255).
Proof. vm_compute. reflexivity. Qed.

Example box_ico_header :
  take 8 (@create_ico_data box_imaging) = [x00; x00; x01; x00; x01; x00; x10; x10].
Proof. vm_compute. reflexivity. Qed.

(** ** Witnesses *)

Lemma large_icon_resized_from_base_witness :
  Wrote "favicon-32x32.png" ∈ trace (@run box_imaging all_writes_ok ∅).2
  /\ files (@run box_imaging all_writes_ok ∅).2 !! "favicon-32x32.png"
     = Some (@png_encode box_imaging
               (@Image_resize box_imaging (@create_favicon box_imaging) (32, 32)%nat LANCZOS)).
Proof.
  assert (Hw : Wrote "favicon-32x32.png" ∈ trace (@run box_imaging all_writes_ok ∅).2).
  { apply list_elem_of_In. vm_compute. right; right; right; left; reflexivity. }
  split; [exact Hw|].
  apply (@large_icon_resized_from_base box_imaging all_writes_ok ∅ Hw).
Defined.

Lemma write_failure_propagates_witness :
  WriteFailed "favicon-16x16.png" ∈ trace (@run box_imaging disk_full_after_ico ∅).2
  /\ (@run box_imaging disk_full_after_ico ∅).1 = Raised OSError.
Proof.
  assert (Hf : WriteFailed "favicon-16x16.png"
               ∈ trace (@run box_imaging disk_full_after_ico ∅).2).
  { apply list_elem_of_In. vm_compute. right; right; left; reflexivity. }
  split; [exact Hf|].
  apply (@write_failure_propagates box_imaging disk_full_after_ico ∅ _ Hf).
Defined.

Lemma pipeline_deterministic_witness :
  (@run box_imaging all_writes_ok ∅).1 = Returned tt
  /\ (@run box_imaging all_writes_ok {["favicon.ico" := [x00]]}).1 = Returned tt.
Proof.
  assert (Hok : (@run box_imaging all_writes_ok ∅).1 = Returned tt).
  { vm_compute. reflexivity. }
  split; [exact Hok|].
  apply (@pipeline_deterministic box_imaging all_writes_ok ∅ {["favicon.ico" := [x00]]} Hok).
Defined.

(** * Further properties *)

(** ** Painter's order on the canvas *)

Section Painter.
Context `{Imaging}.

Lemma draw_paint img c : draw img c = paint img (covers c) (fill_of c).
Proof. destruct c; reflexivity. Qed.

(** One drawing call changes a pixel only where its shape touches it. *)
Lemma getpixel_paint img cover fill x y :
  getpixel (paint img cover fill) (x, y)
  = (fun old => if cover x y then fill else old) <$> getpixel img (x, y).
Proof.
  unfold getpixel, paint. cbn [size pixels fst snd].
  destruct (Nat.ltb_spec x (size img).1) as [Hx|Hx]; [|reflexivity].
  destruct (y <? (size img).2)%nat; [|reflexivity].
  cbn [andb]. rewrite list_lookup_imap.
  assert (Hmod : ((y * (size img).1 + x) mod (size img).1 = x)%nat).
  { symmetry. apply (Nat.mod_unique _ _ y); lia. }
  assert (Hdiv : ((y * (size img).1 + x) / (size img).1 = y)%nat).
  { symmetry. apply (Nat.div_unique _ _ _ x); lia. }
  rewrite Hmod, Hdiv. reflexivity.
Qed.

Lemma getpixel_foldl_draw cs img x y :
  getpixel (foldl draw img cs) (x, y) = top_fill cs x y <$> getpixel img (x, y).
Proof.
  revert img. induction cs as [|c cs IH]; intros img; cbn [foldl top_fill].
  - by destruct (getpixel img (x, y)).
  - rewrite IH, draw_paint, getpixel_paint.
    by destruct (getpixel img (x, y)).
Qed.

Lemma getpixel_Image_new m w h color x y :
  (x < w)%nat -> (y < h)%nat -> getpixel (Image_new m (w, h) color) (x, y) = Some color.
Proof.
  intros Hx Hy. unfold getpixel, Image_new. cbn [size pixels fst snd].
  destruct (Nat.ltb_spec x w); [|lia].
  destruct (Nat.ltb_spec y h); [|lia].
  cbn [andb]. apply lookup_replicate_2. nia.
Qed.

Lemma top_fill_app a b x y under :
  top_fill (a ++ b) x y under = top_fill b x y (top_fill a x y under).
Proof. revert under. induction a as [|c a IH]; intros under; simpl; [done|]. apply IH. Qed.

Lemma top_fill_uncovered cs x y under :
  Forall (fun c => covers c x y = false) cs -> top_fill cs x y under = under.
Proof.
  intros Hcs. revert under.
  induction Hcs as [|c cs Hc _ IH]; intros under; simpl; [done|].
  rewrite Hc. apply IH.
Qed.

Lemma create_favicon_pixel x y :
  (x < 16)%nat -> (y < 16)%nat ->
  getpixel create_favicon (x, y) = Some (top_fill create_favicon_calls x y canvas_color).
Proof.
  intros Hx Hy. rewrite create_favicon_fold, getpixel_foldl_draw.
  by rewrite getpixel_Image_new.
Qed.

End Painter.

Lemma canvas_after_S `{Imaging} n c :
  create_favicon_calls !! n = Some c -> canvas_after (S n) = draw (canvas_after n) c.
Proof.
  intros Hn. unfold canvas_after.
  rewrite (take_S_r _ _ _ Hn), foldl_app. reflexivity.
Qed.

Lemma canvas_after_shape `{Imaging} n :
  size (canvas_after n) = (16, 16)%nat /\ length (pixels (canvas_after n)) = 256%nat.
Proof.
  unfold canvas_after.
  destruct (foldl_draw_shape (Image_new "RGBA" (16, 16)%nat canvas_color)
              (take n create_favicon_calls)) as (_ & -> & ->).
  split; reflexivity.
Qed.

Lemma canvas_after_all `{Imaging} : canvas_after 10 = create_favicon.
Proof.
  unfold canvas_after. rewrite create_favicon_fold.
  rewrite take_ge by (unfold create_favicon_calls; simpl; lia). reflexivity.
Qed.

(** C4: [create_favicon] takes no argument.  It allocates a 16x16 RGBA
    canvas whose every pixel is the background colour and then makes ten
    calls in this order: one rectangle, one ellipse, four more ellipses,
    two lines and two arcs, with the literal coordinates and colours of
    [create_favicon_calls].  Each call stores its colour in exactly the
    pixels its shape touches and leaves every other pixel as the calls
    before left it.  The result is the canvas after the tenth call: 16x16,
    RGBA, with a value at each of its 256 pixels. *)
Theorem create_favicon_construction `{Imaging} :
  create_favicon
    = foldl draw (Image_new "RGBA" (16, 16)%nat (45, 55, 72, 255)) create_favicon_calls
  /\ primitive <$> create_favicon_calls
     = [Rectangle; Ellipse; Ellipse; Ellipse; Ellipse; Ellipse; Line; Line; Arc; Arc]
  /\ pixels (Image_new "RGBA" (16, 16)%nat (45, 55, 72, 255)) = replicate 256 (45, 55, 72, 255)
  /\ mode create_favicon = "RGBA"
  /\ size create_favicon = (16, 16)%nat
  /\ length (pixels create_favicon) = 256%nat
  /\ (forall x y, (x < 16)%nat -> (y < 16)%nat -> is_Some (getpixel create_favicon (x, y)))
  /\ (forall x y, (x < 16)%nat -> (y < 16)%nat ->
        getpixel (canvas_after 0) (x, y) = Some (45, 55, 72, 255))
  /\ (forall n c, create_favicon_calls !! n = Some c ->
        forall x y, (x < 16)%nat -> (y < 16)%nat ->
          getpixel (canvas_after (S n)) (x, y)
          = if covers c x y then Some (fill_of c) else getpixel (canvas_after n) (x, y))
  /\ canvas_after 10 = create_favicon.
Proof.
  do 5 (split; [reflexivity|]).
  split; [apply create_favicon_length|].
  split.
  { intros x y Hx Hy. apply getpixel_is_Some; [|exact Hx|exact Hy].
    rewrite create_favicon_length. reflexivity. }
  split.
  { intros x y Hx Hy. unfold canvas_after. cbn [take foldl].
    by apply getpixel_Image_new. }
  split; [|apply canvas_after_all].
  intros n c Hn x y Hx Hy.
  rewrite (canvas_after_S n c Hn), draw_paint, getpixel_paint.
  destruct (canvas_after_shape n) as [Hsize Hlen].
  destruct (getpixel_is_Some (canvas_after n) x y) as [old Hold].
  - rewrite Hsize, Hlen. reflexivity.
  - rewrite Hsize. exact Hx.
  - rewrite Hsize. exact Hy.
  - rewrite Hold. cbn [fmap option_fmap option_map]. by destruct (covers c x y).
Qed.

Lemma create_favicon_construction_witness :
  create_favicon_calls !! 1%nat = Some (ellipse [4; 8; 8; 12] (26, 32, 44, 255))
  /\ (5 < 16)%nat /\ (9 < 16)%nat
  /\ getpixel (@canvas_after box_imaging 2) (5, 9)%nat = Some (26, 32, 44, 255)
  /\ is_Some (getpixel (@create_favicon box_imaging) (5, 9)%nat).
Proof.
  destruct (@create_favicon_construction box_imaging)
    as (_ & _ & _ & _ & _ & _ & Hsome & _ & Hstep & _).
  split; [reflexivity|]. split; [lia|]. split; [lia|]. split.
  - exact (Hstep 1%nat (ellipse [4; 8; 8; 12] (26, 32, 44, 255)) eq_refl
             5%nat 9%nat ltac:(lia) ltac:(lia)).
  - apply Hsome; lia.
Defined.

(** Painter's order: a pixel of the base canvas that no call touches
    keeps the canvas fill; a pixel some call touches has the ink of the
    last call that touches it, whatever earlier calls drew there. *)
Theorem create_favicon_last_call_wins `{Imaging} x y :
  (x < 16)%nat -> (y < 16)%nat ->
  (Forall (fun c => covers c x y = false) create_favicon_calls ->
   getpixel create_favicon (x, y) = Some canvas_color)
  /\ (forall before c after,
        create_favicon_calls = before ++ c :: after ->
        covers c x y = true ->
        Forall (fun c' => covers c' x y = false) after ->
        getpixel create_favicon (x, y) = Some (fill_of c)).
Proof.
  intros Hx Hy. split.
  - intros Hnone. rewrite create_favicon_pixel by done.
    by rewrite top_fill_uncovered.
  - intros before c after Hcalls Hc Hafter.
    rewrite create_favicon_pixel by done.
    rewrite Hcalls, top_fill_app. cbn [top_fill]. rewrite Hc.
    by rewrite top_fill_uncovered.
Qed.

Lemma create_favicon_last_call_wins_witness :
  (5 < 16)%nat /\ (9 < 16)%nat
  /\ getpixel (@create_favicon box_imaging) (5, 9)%nat = Some (26, 32, 44, 255).
Proof.
  split; [lia|]. split; [lia|].
  refine (proj2 (@create_favicon_last_call_wins box_imaging 5%nat 9%nat _ _)
            [rectangle [2; 6; 14; 14] (74, 85, 104, 255)]
            (ellipse [4; 8; 8; 12] (26, 32, 44, 255))
            (drop 2 create_favicon_calls) _ _ _); try lia; try reflexivity.
  repeat (constructor; [reflexivity|]). constructor.
Defined.

(** Only palette colours: after every step of the construction, and in
    the finished base canvas, each pixel holds one of the five colour
    constants of the function; no other colour can appear. *)
Theorem canvas_only_palette_colors `{Imaging} :
  (forall n, Forall (fun c => c ∈ palette) (pixels (canvas_after n)))
  /\ Forall (fun c => c ∈ palette) (pixels create_favicon).
Proof.
  assert (Hcalls : Forall (fun c => c ∈ palette) (fill_of <$> create_favicon_calls)).
  { apply Forall_forall. intros c Hc. apply colors_used_palette.
    unfold colors_used. rewrite elem_of_cons. by right. }
  assert (Hsteps : forall n, Forall (fun c => c ∈ palette) (pixels (canvas_after n))).
  { intros n. unfold canvas_after. apply foldl_draw_Forall.
    - rewrite fmap_take. by apply Forall_take.
    - unfold Image_new, pixels. apply Forall_replicate.
      apply colors_used_palette. unfold colors_used. rewrite elem_of_cons. by left. }
  split; [done|].
  rewrite create_favicon_fold.
  specialize (Hsteps (length create_favicon_calls)).
  unfold canvas_after in Hsteps. by rewrite firstn_all in Hsteps.
Qed.

(** ** What a run leaves behind *)

(** The five ways a run can go, with the files it leaves. *)
Lemma run_cases_full `{Imaging} env fs :
  (pil_available env = false
   /\ run env fs = (Raised ImportError, start fs))
  \/ (pil_available env = true /\ write_ok env "favicon.ico" = false
      /\ run env fs
         = (Raised OSError,
            {| files := spoiled env "favicon.ico" create_ico_data fs;
               trace := [WriteFailed "favicon.ico"] |}))
  \/ (pil_available env = true /\ write_ok env "favicon.ico" = true
      /\ write_ok env "favicon-16x16.png" = false
      /\ run env fs
         = (Raised OSError,
            {| files :=
                 spoiled env "favicon-16x16.png" (png_encode create_favicon)
                   (stored env "favicon.ico" create_ico_data fs);
               trace :=
                 [ Wrote "favicon.ico"; Printed "favicon.ico created successfully!";
                   WriteFailed "favicon-16x16.png" ] |}))
  \/ (pil_available env = true /\ write_ok env "favicon.ico" = true
      /\ write_ok env "favicon-16x16.png" = true
      /\ write_ok env "favicon-32x32.png" = false
      /\ run env fs
         = (Raised OSError,
            {| files :=
                 spoiled env "favicon-32x32.png"
                   (png_encode (Image_resize create_favicon (32, 32)%nat LANCZOS))
                   (stored env "favicon-16x16.png" (png_encode create_favicon)
                      (stored env "favicon.ico" create_ico_data fs));
               trace :=
                 [ Wrote "favicon.ico"; Printed "favicon.ico created successfully!";
                   Wrote "favicon-16x16.png"; WriteFailed "favicon-32x32.png" ] |}))
  \/ (pil_available env = true /\ write_ok env "favicon.ico" = true
      /\ write_ok env "favicon-16x16.png" = true
      /\ write_ok env "favicon-32x32.png" = true
      /\ run env fs
         = (Returned tt,
            {| files :=
                 stored env "favicon-32x32.png"
                   (png_encode (Image_resize create_favicon (32, 32)%nat LANCZOS))
                   (stored env "favicon-16x16.png" (png_encode create_favicon)
                      (stored env "favicon.ico" create_ico_data fs));
               trace :=
                 [ Wrote "favicon.ico"; Printed "favicon.ico created successfully!";
                   Wrote "favicon-16x16.png"; Wrote "favicon-32x32.png";
                   Printed "PNG versions created successfully!" ] |})).
Proof.
  cbv beta iota zeta delta
    [run script main import_PIL try_except bind Image_save_png write_file print
     ret raise start fst snd files trace].
  destruct (pil_available env); [|left; split; reflexivity].
  right.
  destruct (write_ok env "favicon.ico"); cbv beta iota;
    [|left; repeat split; reflexivity].
  right.
  destruct (write_ok env "favicon-16x16.png"); cbv beta iota;
    [|left; repeat split; reflexivity].
  right.
  destruct (write_ok env "favicon-32x32.png"); cbv beta iota;
    [|left; repeat split; reflexivity].
  right. repeat split; reflexivity.
Qed.

Ltac run_case env fs :=
  let Hr := fresh "Hr" in
  destruct (run_cases_full env fs)
    as [[? Hr]|[(? & ? & Hr)|[(? & ? & ? & Hr)|[(? & ? & ? & ? & Hr)|(? & ? & ? & ? & Hr)]]]];
  rewrite Hr;
  cbv beta iota zeta delta [start written stdout fst snd trace files flat_map app].

Ltac list_facts :=
  unfold output_files, success_lines, fallback_lines;
  rewrite ?elem_of_cons, ?elem_of_nil.




(** The fallback handler is never reached: in no environment does a run
    print either of the two fallback lines. *)
Theorem fallback_never_printed `{Imaging} env fs :
  Forall (fun text => text ∉ stdout (run env fs).2) fallback_lines.
Proof.
  run_case env fs; unfold fallback_lines;
    repeat (apply Forall_cons; split; [|]); try apply Forall_nil_2;
    rewrite ?elem_of_cons, ?elem_of_nil; intros Hp;
    repeat (destruct Hp as [Hp|Hp]; [discriminate Hp|]); done.
Qed.



(** Without links between the outputs: the names of [output_files] are
    pairwise different, so an environment with no aliases at all keeps
    them apart. *)
Lemma outputs_unlinked_no_aliases env :
  (forall p, aliases env p = []) -> outputs_unlinked env.
Proof. intros Hno p q _ _. rewrite Hno. apply not_elem_of_nil. Qed.

Ltac unlinked Hun :=
  let use p q :=
    assert (q ∉ aliases _ p)
      by (apply Hun; unfold output_files; rewrite !elem_of_cons; auto) in
  use "favicon-16x16.png" "favicon.ico";
  use "favicon-32x32.png" "favicon.ico";
  use "favicon-32x32.png" "favicon-16x16.png".

(** No rollback: where no output name is a link to another output, a
    file the run has written keeps its complete content to the end of the
    run, also when a later write fails. *)
Theorem written_files_complete `{Imaging} env fs :
  outputs_unlinked env ->
  ("favicon.ico" ∈ written (run env fs).2 ->
   files (run env fs).2 !! "favicon.ico" = Some create_ico_data)
  /\ ("favicon-16x16.png" ∈ written (run env fs).2 ->
      files (run env fs).2 !! "favicon-16x16.png" = Some (png_encode create_favicon)).
Proof.
  intros Hun. unlinked Hun.
  run_case env fs; split; list_facts; intros Hp;
    repeat (destruct Hp as [Hp|Hp]; [try discriminate Hp|]); try done;
    rewrite ?lookup_spoiled_ne by done;
    rewrite ?lookup_stored_ne by done;
    apply lookup_stored_eq.
Qed.

Lemma written_files_complete_witness :
  outputs_unlinked disk_full_after_ico
  /\ "favicon.ico" ∈ written (@run box_imaging disk_full_after_ico ∅).2
  /\ (@run box_imaging disk_full_after_ico ∅).1 = Raised OSError
  /\ files (@run box_imaging disk_full_after_ico ∅).2 !! "favicon.ico"
     = Some (@create_ico_data box_imaging).
Proof.
  assert (Hun : outputs_unlinked disk_full_after_ico).
  { apply outputs_unlinked_no_aliases. reflexivity. }
  assert (Hw : "favicon.ico" ∈ written (@run box_imaging disk_full_after_ico ∅).2).
  { apply list_elem_of_In. vm_compute. left; reflexivity. }
  split; [exact Hun|]. split; [exact Hw|]. split; [vm_compute; reflexivity|].
  apply (proj1 (@written_files_complete box_imaging disk_full_after_ico ∅ Hun) Hw).
Defined.


(** The icon file wraps the small PNG: where no output name is a link to
    another output, after a successful run favicon.ico is a 22-byte
    directory for one image followed by exactly the bytes of
    favicon-16x16.png. *)
Theorem ico_wraps_png16 `{Imaging} env fs :
  outputs_unlinked env ->
  (run env fs).1 = Returned tt ->
  exists header png,
    length header = 22%nat
    /\ take 6 header = [x00; x00; x01; x00; x01; x00]
    /\ files (run env fs).2 !! "favicon.ico" = Some (header ++ png)
    /\ files (run env fs).2 !! "favicon-16x16.png" = Some png.
Proof.
  intros Hun. unlinked Hun.
  run_case env fs; intros Hok; try discriminate.
  exists (ICO.MAGIC ++ [x01; x00]
          ++ ([x10; x10; x00; x00; x00; x00; x20; x00]
              ++ o32 (Z.of_nat (length (png_encode create_favicon)))
              ++ [x16; x00; x00; x00])),
         (png_encode create_favicon).
  split; [reflexivity|]. split; [reflexivity|]. split.
  - rewrite !lookup_stored_ne by done.
    rewrite lookup_stored_eq. f_equal.
    unfold create_ico_data. cbv zeta.
    rewrite (save_of_16 _ create_favicon_size).
    rewrite <- !app_assoc. reflexivity.
  - rewrite lookup_stored_ne by done. apply lookup_stored_eq.
Qed.

Lemma ico_wraps_png16_witness :
  outputs_unlinked all_writes_ok
  /\ (@run box_imaging all_writes_ok ∅).1 = Returned tt
  /\ exists header png,
       length header = 22%nat
       /\ take 6 header = [x00; x00; x01; x00; x01; x00]
       /\ files (@run box_imaging all_writes_ok ∅).2 !! "favicon.ico" = Some (header ++ png)
       /\ files (@run box_imaging all_writes_ok ∅).2 !! "favicon-16x16.png" = Some png.
Proof.
  assert (Hun : outputs_unlinked all_writes_ok).
  { apply outputs_unlinked_no_aliases. reflexivity. }
  assert (Hok : (@run box_imaging all_writes_ok ∅).1 = Returned tt).
  { vm_compute. reflexivity. }
  split; [exact Hun|]. split; [exact Hok|].
  apply (@ico_wraps_png16 box_imaging all_writes_ok ∅ Hun Hok).
Defined.

(** ** Links at work *)

(** With [favicon-16x16.png] a link to [favicon.ico], the PNG save goes
    through to the icon file: after a successful run [favicon.ico] holds
    the PNG bytes. *)
Example linked_ico_is_overwritten :
  (@run box_imaging png16_linked_to_ico ∅).1 = Returned tt
  /\ files (@run box_imaging png16_linked_to_ico ∅).2 !! "favicon.ico"
     = Some (@png_encode box_imaging (@create_favicon box_imaging)).
Proof. vm_compute. split; reflexivity. Qed.

(** With [favicon.ico] a link to [index.html], the run rewrites
    [index.html]. *)
Example linked_index_is_rewritten :
  files (@run box_imaging ico_linked_to_index {["index.html" := [x01]]}).2 !! "index.html"
  = Some (@create_ico_data box_imaging).
Proof. vm_compute. reflexivity. Qed.
